(** * The render context of the liquid template engine

    A shallow embedding of [render/context.go]: the tag-facing facade
    [renderContext] over a node context, with the Go features the file
    relies on written out:

    - bindings are a Go [map[string]interface{}], a reference into a
      store of tables, so that two contexts holding the same reference
      see each other's writes;
    - [panic] and [recover] are an outcome next to the normal return;
    - [(T, error)] results are pairs with an optional error;
    - an [io.Writer] is the text written to it so far. *)

From Stdlib Require Import Ascii String.
From stdpp Require Import base option strings pretty gmap list.

Open Scope string_scope.

(** ** Go values, errors and panics *)

(** The dynamic values an [interface{}] holds in this development.  [VNil]
    is the nil interface, the zero value a map lookup yields for an
    absent key. *)
Inductive value : Type :=
| VNil
| VBool (b : bool)
| VInt (n : Z)
| VString (s : string).

#[global] Instance value_eq_dec : EqDecision value.
Proof. solve_decision. Defined.

(** Values of Go's [error] interface, by dynamic type. *)
Inductive error : Type :=
| InterpreterError (msg : string)       (* expression.InterpreterError, a string type *)
| PathError (op path cause : string)    (* *os.PathError, what ioutil.ReadFile returns *)
| errorString (msg : string)            (* what fmt.Errorf builds *)
| SourceError (dyn_type msg : string).  (* an error type declared in another package *)

#[global] Instance error_eq_dec : EqDecision error.
Proof. solve_decision. Defined.

(** The [Error()] method. *)
Definition Error (e : error) : string :=
  match e with
  | InterpreterError msg => msg
  | PathError op path cause => op +:+ " " +:+ path +:+ ": " +:+ cause
  | errorString msg => msg
  | SourceError _ msg => msg
  end.

(** A value handed to [panic].  A value that is not an [error] is kept as
    the text the verb [%s] prints for it.  A recovered value is never nil:
    since Go 1.21 the runtime turns [panic(nil)] into a run-time error of
    its own, which is a value of the second kind. *)
Inductive fault : Type :=
| FaultError (e : error)
| FaultValue (shown : string).

#[global] Instance fault_eq_dec : EqDecision fault.
Proof. solve_decision. Defined.

(** What [%s] prints for a panic value. *)
Definition format_s (r : fault) : string :=
  match r with
  | FaultError e => Error e
  | FaultValue shown => shown
  end.

(** The type switch [case expression.InterpreterError] of [EvaluateString]. *)
Definition is_InterpreterError (r : fault) : bool :=
  match r with
  | FaultError (InterpreterError _) => true
  | _ => false
  end.

(** ** [fmt.Sprintf] and [strings.Contains] *)

(** [fmt.Sprintf] on the verbs the source uses, [%%] and [%s], with the
    operands already rendered as text.  A [%s] without operand prints
    [%!s(MISSING)] as in Go. *)
Fixpoint Sprintf (format : string) (args : list string) : string :=
  match format with
  | "" => ""
  | String "%"%char (String "%"%char rest) => String "%"%char (Sprintf rest args)
  | String "%"%char (String "s"%char rest) =>
      match args with
      | a :: args' => a +:+ Sprintf rest args'
      | [] => "%!s(MISSING)" +:+ Sprintf rest []
      end
  | String ch rest => String ch (Sprintf rest args)
  end.

(** [fmt.Errorf]: the error whose text is the formatted string. *)
Definition Errorf (format : string) (args : list string) : error :=
  errorString (Sprintf format args).

(** [strings.HasPrefix]. *)
Fixpoint HasPrefix (s prefix : string) {struct prefix} : bool :=
  match prefix, s with
  | "", _ => true
  | String a prefix', String b s' =>
      if decide (a = b) then HasPrefix s' prefix' else false
  | String _ _, "" => false
  end.

(** [strings.Contains]: [substr] occurs at some offset of [s]. *)
Fixpoint Contains (s substr : string) : bool :=
  if HasPrefix s substr then true
  else match s with
       | "" => false
       | String _ s' => Contains s' substr
       end.

(** ** The store of binding tables, and computations over it *)

Abbreviation loc := positive (only parsing).

(** A Go map value is a reference.  The store holds the table behind each
    allocated reference; a reference without table is the nil map. *)
Abbreviation store := (gmap loc (gmap string value)) (only parsing).

Inductive outcome (A : Type) : Type :=
| Done (a : A) (σ : store)
| Panicked (r : fault) (σ : store).
Arguments Done {A} a σ.
Arguments Panicked {A} r σ.

Definition M (A : Type) : Type := store → outcome A.

#[global] Instance M_ret : MRet M := λ A a σ, Done a σ.
#[global] Instance M_bind : MBind M := λ A B k m σ,
  match m σ with
  | Done a σ' => k a σ'
  | Panicked r σ' => Panicked r σ'
  end.

Definition panic {A} (r : fault) : M A := λ σ, Panicked r σ.

(** The Go expression [m[k]]: the zero value for an absent key, also on
    the nil map. *)
Definition map_index (σ : store) (m : loc) (k : string) : value :=
  match σ !! m with
  | Some tbl => default VNil (tbl !! k)
  | None => VNil
  end.

(** The Go statement [m[k] = v]: a run-time panic on the nil map. *)
Definition map_assign (m : loc) (k : string) (v : value) : M unit := λ σ,
  match σ !! m with
  | Some tbl => Done () (<[m := <[k := v]> tbl]> σ)
  | None => Panicked (FaultError (errorString "assignment to entry in nil map")) σ
  end.

(** [for k, v := range src { dst[k] = v }] over the entries of [src]. *)
Fixpoint range_assign (dst : loc) (entries : list (string * value)) : M unit :=
  match entries with
  | [] => mret ()
  | (k, v) :: rest => map_assign dst k v ;; range_assign dst rest
  end.

(** A call that returns [(T, error)] without touching the store. *)
Inductive result (A : Type) : Type :=
| Ok (a : A)
| Err (e : error).
Arguments Ok {A} a.
Arguments Err {A} e.

(** ** The syntax tree and the contexts *)

(** The part of a tag's chunk that the render context reads. *)
Record Chunk : Type := mkChunk {
  Name : string;
  Args : string
}.

Record ASTFunctional : Type := mkASTFunctional {
  ASTFunctional_Chunk : Chunk
}.

(** Modelled from the spec: the node variants are declared outside
    [context.go], which only reads [Chunk] of a functional node and
    [Chunk] and [Body] of a block node.  A tree is made of text runs,
    embedded expressions, tag invocations without and with a body, and
    the ordered sequence that a parsed template is. *)
#[warnings="-register-all"]
Inductive ASTNode : Type :=
| ASTText (source : string)
| ASTObject (expr : string)
| ASTFunctionalNode (n : ASTFunctional)
| ASTBlockNode (b : ASTBlock)
| ASTSeq (children : list ASTNode)
with ASTBlock : Type :=
| mkASTBlock (chunk : Chunk) (body : list ASTNode).

Definition ASTBlock_Chunk (b : ASTBlock) : Chunk :=
  match b with mkASTBlock chunk _ => chunk end.

Definition ASTBlock_Body (b : ASTBlock) : list ASTNode :=
  match b with mkASTBlock _ body => body end.

(** An [io.Writer], as the text written to it so far. *)
Definition Writer := string.

(** [new(bytes.Buffer)] and the buffer's [String()]. *)
Definition new_Buffer : Writer := "".
Definition Buffer_String (buf : Writer) : string := buf.

Section RenderContext.

(** [expression.Config] belongs to the expression package; the render
    context only hands it on. *)
Context {ExprConfig : Type}.

(** The settings of a render: the two members [context.go] uses. *)
Record Config : Type := mkConfig {
  Parse : string → result ASTNode;
  ExpressionConfig : ExprConfig
}.

Record nodeContext : Type := mkNodeContext {
  bindings : loc;
  settings : Config
}.

(** [node] and [cn] are pointers: [None] is nil. *)
Record renderContext : Type := mkRenderContext {
  ctx : nodeContext;
  node : option ASTFunctional;
  cn : option ASTBlock
}.

(** What [expression.NewContext] packs for the evaluator: the very map
    reference it is given, and the configuration. *)
Record expression_Context : Type := expression_NewContext {
  ec_bindings : loc;
  ec_Config : ExprConfig
}.

(** ** Collaborators declared outside [context.go] *)

(** [ioutil.ReadFile] on the file system of the run. *)
Variable ReadFile : string → result string.

(** [expression.EvaluateString]: returns a value and an error, or
    panics; it holds the bindings map and may write to it. *)
Variable expression_EvaluateString :
  string → expression_Context → M (value * option error).

(** [renderNode(node, w, ctx)] and [ctx.RenderASTSequence(w, nodes)]:
    the writer after the call, and the error returned. *)
Variable renderNode : ASTNode → Writer → nodeContext → M (Writer * option error).
Variable RenderASTSequence :
  nodeContext → Writer → list ASTNode → M (Writer * option error).

(** ** The methods of [renderContext] *)

(** A function body [body] with a deferred closure that calls
    [recover()]: on a panic with value [r] the closure runs as
    [deferred r], which either leaves the function's results or panics
    again. *)
Definition defer_recover {A} (body : M A) (deferred : fault → M A) : M A := λ σ,
  match body σ with
  | Done a σ' => Done a σ'
  | Panicked r σ' => deferred r σ'
  end.

(** On a recovered [InterpreterError] the named result [err] is set and
    [out] keeps its zero value. *)
Definition EvaluateString (c : renderContext) (source : string)
  : M (value * option error) :=
  defer_recover
    (expression_EvaluateString source
       (expression_NewContext (bindings (ctx c))
                              (ExpressionConfig (settings (ctx c)))))
    (λ r, match r with
          | FaultError (InterpreterError msg) =>
              mret (VNil, Some (InterpreterError msg))
          | e =>
              panic (FaultError
                       (Errorf "%s during evaluation of %s" [format_s e; source]))
          end).

Definition EvaluateStatement (c : renderContext) (tag source : string)
  : M (value * option error) :=
  EvaluateString c (Sprintf "%%%s %s" [tag; source]).

Definition Get (c : renderContext) (name : string) : M value := λ σ,
  Done (map_index σ (bindings (ctx c)) name) σ.

Definition Set_ (c : renderContext) (name : string) (v : value) : M unit :=
  map_assign (bindings (ctx c)) name v.

(** [b] is a pointer: reading [b.Body] through nil panics with the
    run-time error of a nil dereference. *)
Definition RenderChild (c : renderContext) (w : Writer) (b : option ASTBlock)
  : M (Writer * option error) :=
  match b with
  | Some b => RenderASTSequence (ctx c) w (ASTBlock_Body b)
  | None =>
      panic (FaultError
               (errorString
                  "runtime error: invalid memory address or nil pointer dereference"))
  end.

Definition RenderChildren (c : renderContext) (w : Writer)
  : M (Writer * option error) :=
  match cn c with
  | None => mret (w, None)
  | Some b => RenderASTSequence (ctx c) w (ASTBlock_Body b)
  end.

Definition RenderFile (c : renderContext) (filename : string)
  : M (string * option error) :=
  match ReadFile filename with
  | Err err => mret ("", Some err)
  | Ok source =>
      match Parse (settings (ctx c)) source with
      | Err err => mret ("", Some err)
      | Ok ast =>
          '(buf, err) ← renderNode ast new_Buffer (ctx c);
          match err with
          | Some err => mret ("", Some err)
          | None => mret (Buffer_String buf, None)
          end
      end
  end.

Definition InnerString (c : renderContext) : M (string * option error) :=
  '(buf, err) ← RenderChildren c new_Buffer;
  match err with
  | Some err => mret ("", Some err)
  | None => mret (Buffer_String buf, None)
  end.

Definition TagArgs (c : renderContext) : string :=
  match node c, cn c with
  | Some n, _ => Args (ASTFunctional_Chunk n)
  | None, Some b => Args (ASTBlock_Chunk b)
  | None, None => ""
  end.

Definition TagName (c : renderContext) : string :=
  match node c, cn c with
  | Some n, _ => Name (ASTFunctional_Chunk n)
  | None, Some b => Name (ASTBlock_Chunk b)
  | None, None => ""
  end.

Definition ParseTagArgs (c : renderContext) : M (string * option error) :=
  let args := TagArgs c in
  if Contains args "{{" then
    match Parse (settings (ctx c)) args with
    | Err err => mret ("", Some err)
    | Ok p =>
        '(buf, err) ← renderNode p new_Buffer (ctx c);
        match err with
        | Some err => mret ("", Some err)
        | None => mret (Buffer_String buf, None)
        end
    end
  else mret (args, None).

Definition UpdateBindings (c : renderContext) (b : gmap string value) : M unit :=
  range_assign (bindings (ctx c)) (map_to_list b).

(** [expression.Expression], a parsed expression of the evaluator. *)
Context {Expression : Type}.

(** The two [nodeContext] methods that [Clone] and [Evaluate] call; both
    are declared outside [context.go].  [Clone] makes a map, so it is a
    computation over the store. *)
Variable nodeContext_Clone : nodeContext → M nodeContext.
Variable nodeContext_Evaluate :
  nodeContext → Expression → M (value * option error).

Definition Clone (c : renderContext) : M renderContext :=
  x ← nodeContext_Clone (ctx c);
  mret (mkRenderContext x (node c) (cn c)).

Definition Evaluate (c : renderContext) (expr : Expression)
  : M (value * option error) :=
  nodeContext_Evaluate (ctx c) expr.

End RenderContext.

Arguments Config : clear implicits.
Arguments nodeContext : clear implicits.
Arguments renderContext : clear implicits.
Arguments expression_Context : clear implicits.

(** ** The [Context] interface *)

(** The interface tag renderers are written against, as the record of its
    methods.  [Clone] and [Evaluate] rest on [nodeContext] methods that
    are declared outside [context.go] and are left out. *)
Module TagContext.
Record t : Type := make {
  Get : string → M value;
  Set_ : string → value → M unit;
  EvaluateString : string → M (value * option error);
  EvaluateStatement : string → string → M (value * option error);
  InnerString : M (string * option error);
  ParseTagArgs : M (string * option error);
  RenderChild : Writer → option ASTBlock → M (Writer * option error);
  RenderChildren : Writer → M (Writer * option error);
  RenderFile : string → M (string * option error);
  TagArgs : string;
  TagName : string;
  UpdateBindings : gmap string value → M unit
}.
End TagContext.

(** [renderContext] implements [Context]. *)
Definition renderContext_Context {ExprConfig : Type}
    (ReadFile : string → result string)
    (eval : string → expression_Context ExprConfig → M (value * option error))
    (renderNode : ASTNode → Writer → nodeContext ExprConfig → M (Writer * option error))
    (RenderASTSequence :
       nodeContext ExprConfig → Writer → list ASTNode → M (Writer * option error))
    (c : renderContext ExprConfig) : TagContext.t :=
  {| TagContext.Get := Get c;
     TagContext.Set_ := Set_ c;
     TagContext.EvaluateString := EvaluateString eval c;
     TagContext.EvaluateStatement := EvaluateStatement eval c;
     TagContext.InnerString := InnerString RenderASTSequence c;
     TagContext.ParseTagArgs := ParseTagArgs renderNode c;
     TagContext.RenderChild := RenderChild RenderASTSequence c;
     TagContext.RenderChildren := RenderChildren RenderASTSequence c;
     TagContext.RenderFile := RenderFile ReadFile renderNode c;
     TagContext.TagArgs := TagArgs c;
     TagContext.TagName := TagName c;
     TagContext.UpdateBindings := UpdateBindings c |}.

(** ** The renderer, modelled from the specification *)

Module SpecModel.

(** A tag's render behaviour: it writes to [w] through the context it is
    handed. *)
Definition tag_renderer : Type :=
  Writer → TagContext.t → M (Writer * option error).

(** Modelled from the spec: how a value is written to the output is
    decided outside [context.go]; nil prints as nothing, a string as
    itself. *)
Definition writeObject (v : value) : string :=
  match v with
  | VNil => ""
  | VBool b => if b then "true" else "false"
  | VInt n => pretty n
  | VString s => s
  end.

Section Renderer.
Context {ExprConfig : Type}.
Variable ReadFile : string → result string.
Variable eval : string → expression_Context ExprConfig → M (value * option error).
(** The tag registry: the render behaviour of a tag name. *)
Variable registry : string → option tag_renderer.

(** Modelled from the spec: [RenderASTSequence] is declared outside
    [context.go].  It renders the nodes in order into the writer; the
    first failing node aborts the rest, and what is written stays. *)
Fixpoint render_sequence
    (rn : ASTNode → Writer → nodeContext ExprConfig → M (Writer * option error))
    (ctx : nodeContext ExprConfig) (w : Writer) (nodes : list ASTNode)
  : M (Writer * option error) :=
  match nodes with
  | [] => mret (w, None)
  | n :: rest =>
      '(w', err) ← rn n w ctx;
      match err with
      | Some err => mret (w', Some err)
      | None => render_sequence rn ctx w' rest
      end
  end.

(** Modelled from the spec: [renderNode] is declared outside
    [context.go].  Text is written verbatim; an embedded expression
    is evaluated against the bindings, behind the same guard as
    [EvaluateString], and its value written; a tag
    gets a render context around its node and its behaviour, looked
    up by name, is run.  Tags call back into the renderer, so the
    depth of nested calls is bounded by [depth]; beyond it the run
    is cut off with a fault, as a Go program dies on stack exhaustion. *)
Fixpoint renderNode (depth : nat) (nd : ASTNode) (w : Writer)
    (ctx : nodeContext ExprConfig) : M (Writer * option error) :=
  match depth with
  | O => panic (FaultValue "stack overflow")
  | S depth' =>
      let rn := renderNode depth' in
      let rs := render_sequence rn in
      let run (c : renderContext ExprConfig) : M (Writer * option error) :=
        match registry (TagName c) with
        | Some render =>
            render w (renderContext_Context ReadFile eval rn rs c)
        | None =>
            mret (w, Some (SourceError "render.Error"
                             ("unknown tag: " +:+ TagName c)))
        end in
      match nd with
      | ASTText source => mret (w +:+ source, None)
      | ASTObject expr =>
          '(v, err) ← EvaluateString eval (mkRenderContext ctx None None) expr;
          match err with
          | Some err => mret (w, Some err)
          | None => mret (w +:+ writeObject v, None)
          end
      | ASTFunctionalNode n => run (mkRenderContext ctx (Some n) None)
      | ASTBlockNode b => run (mkRenderContext ctx None (Some b))
      | ASTSeq children => rs ctx w children
      end
  end.

Definition RenderASTSequence (depth : nat)
  : nodeContext ExprConfig → Writer → list ASTNode → M (Writer * option error) :=
  render_sequence (renderNode depth).

End Renderer.

End SpecModel.


(** ** A small instance of the collaborators *)

(** Stand-ins for the collaborators that the specification leaves to
    other components (file system, expression evaluator, parser, tag
    registry), small enough to run.  They instantiate the parameters of
    the facade in the concrete runs below and are not the repository's
    own parser, evaluator or tags; the general theorems do not depend on
    them. *)
Module Demo.

(** [strings.Cut]: the text before and after the first [sep]. *)
Fixpoint Cut (s sep : string) : option (string * string) :=
  if HasPrefix s sep
  then Some ("", String.substring (String.length sep)
                                  (String.length s - String.length sep) s)
  else match s with
       | "" => None
       | String ch s' =>
           match Cut s' sep with
           | Some (before, after) => Some (String ch before, after)
           | None => None
           end
       end.

Fixpoint TrimLeft (s : string) : string :=
  match s with
  | String " "%char s' => TrimLeft s'
  | _ => s
  end.

Fixpoint TrimRight (s : string) : string :=
  match s with
  | "" => ""
  | String ch s' =>
      match ch, TrimRight s' with
      | " "%char, "" => ""
      | _, t => String ch t
      end
  end.

Definition TrimSpace (s : string) : string := TrimLeft (TrimRight s).

(** The file system: a table of paths; a path without entry fails the way
    [os.Open] does. *)
Definition ReadFile (fs : gmap string string) (filename : string) : result string :=
  match fs !! filename with
  | Some content => Ok content
  | None => Err (PathError "open" filename "no such file or directory")
  end.

(** The expression evaluator: a bare name is looked up in the bindings;
    a filter is either the defective [crash], which panics with a
    run-time error, or undefined, which the evaluator reports by
    panicking with an [InterpreterError]. *)
Definition EvaluateString (source : string) (ec : expression_Context unit)
  : M (value * option error) := λ σ,
  match Cut source "|" with
  | None => Done (map_index σ (ec_bindings ec) (TrimSpace source), None) σ
  | Some (_, filter) =>
      if decide (TrimSpace filter = "crash")
      then Panicked (FaultValue "runtime error: index out of range") σ
      else Panicked (FaultError (InterpreterError
                                   ("undefined filter: " +:+ TrimSpace filter))) σ
  end.

(** The parser: text, [{{ expr }}] and [{% name args %}]; an unclosed
    delimiter is a parse error.  [n] bounds the number of delimiters. *)
Fixpoint parse_nodes (n : nat) (s : string) : result (list ASTNode) :=
  let text (t : string) (k : result (list ASTNode)) :=
    match k with
    | Ok nodes => Ok (if decide (t = "") then nodes else ASTText t :: nodes)
    | Err e => Err e
    end in
  match n with
  | O => Ok (if decide (s = "") then [] else [ASTText s])
  | S n' =>
      let object (before rest : string) :=
        match Cut rest "}}" with
        | None => Err (SourceError "parser.Error" "unterminated object")
        | Some (expr, rest') =>
            text before
              (match parse_nodes n' rest' with
               | Ok nodes => Ok (ASTObject (TrimSpace expr) :: nodes)
               | Err e => Err e
               end)
        end in
      let tag (before rest : string) :=
        match Cut rest "%}" with
        | None => Err (SourceError "parser.Error" "unterminated tag")
        | Some (body, rest') =>
            let chunk :=
              match Cut (TrimSpace body) " " with
              | Some (name, args) => mkChunk name (TrimLeft args)
              | None => mkChunk (TrimSpace body) ""
              end in
            text before
              (match parse_nodes n' rest' with
               | Ok nodes =>
                   Ok (ASTFunctionalNode (mkASTFunctional chunk) :: nodes)
               | Err e => Err e
               end)
        end in
      match Cut s "{{", Cut s "{%" with
      | None, None => Ok (if decide (s = "") then [] else [ASTText s])
      | Some (before, rest), None => object before rest
      | None, Some (before, rest) => tag before rest
      | Some (b1, r1), Some (b2, r2) =>
          if decide (String.length b1 < String.length b2)%nat
          then object b1 r1 else tag b2 r2
      end
  end.

Definition Parse (source : string) : result ASTNode :=
  match parse_nodes (String.length source) source with
  | Ok nodes => Ok (ASTSeq nodes)
  | Err e => Err e
  end.

Definition config : Config unit := mkConfig Parse ().

(** The tag [assign]: [name = expr] evaluates [expr] and binds [name]. *)
Definition assignTag : SpecModel.tag_renderer := λ w c,
  match Cut (TagContext.TagArgs c) "=" with
  | None => mret (w, Some (SourceError "render.Error" "syntax error in assign"))
  | Some (name, expr) =>
      '(v, err) ← TagContext.EvaluateString c expr;
      match err with
      | Some err => mret (w, Some err)
      | None => TagContext.Set_ c (TrimSpace name) v ;; mret (w, None)
      end
  end.

(** The tag [include]: the arguments, after interpolation, name a file,
    which is rendered into the output. *)
Definition includeTag : SpecModel.tag_renderer := λ w c,
  '(filename, err) ← TagContext.ParseTagArgs c;
  match err with
  | Some err => mret (w, Some err)
  | None =>
      '(s, err) ← TagContext.RenderFile c (TrimSpace filename);
      match err with
      | Some err => mret (w, Some err)
      | None => mret (w +:+ s, None)
      end
  end.

(** The block tag [capture]: binds its argument to what its body renders. *)
Definition captureTag : SpecModel.tag_renderer := λ w c,
  '(s, err) ← TagContext.InnerString c;
  match err with
  | Some err => mret (w, Some err)
  | None => TagContext.Set_ c (TagContext.TagArgs c) (VString s) ;; mret (w, None)
  end.

Definition registry (name : string) : option SpecModel.tag_renderer :=
  if decide (name = "assign") then Some assignTag
  else if decide (name = "include") then Some includeTag
  else if decide (name = "capture") then Some captureTag
  else None.

Definition renderNode (fs : gmap string string) (depth : nat)
  : ASTNode → Writer → nodeContext unit → M (Writer * option error) :=
  SpecModel.renderNode (ReadFile fs) EvaluateString registry depth.

Definition RenderASTSequence (fs : gmap string string) (depth : nat)
  : nodeContext unit → Writer → list ASTNode → M (Writer * option error) :=
  SpecModel.RenderASTSequence (ReadFile fs) EvaluateString registry depth.

(** One table of bindings, at reference [1], binding [name]. *)
Definition store0 : store := {[ 1%positive := {[ "name" := VString "x" ]} ]}.

Definition files : gmap string string :=
  {[ "greet.tpl" := "Hello {{ name }}!";
     "set.tpl" := "{% assign y = name %}";
     "bad.tpl" := "Hello {{ name" ;
     "fail.tpl" := "{% assign y = name | upcase %}" ]}.

Definition ctx0 : nodeContext unit := mkNodeContext 1%positive config.

(** A context around the functional tag [{% include {{ name }} %}], and
    one around no node. *)
Definition includeNode : ASTFunctional :=
  mkASTFunctional (mkChunk "include" "{{ name }}").
Definition c_include : renderContext unit := mkRenderContext ctx0 (Some includeNode) None.
Definition c_plain : renderContext unit := mkRenderContext ctx0 None None.

End Demo.

(** More inputs for the concrete runs: files whose rendering panics,
    block nodes, a node context on the nil map, and a stand-in for
    [nodeContext.Clone] that copies the table to a given reference. *)
Module Fixtures.

Definition files : gmap string string :=
  <["crash.tpl" := "{{ name | crash }}"]>
    (<["args.tpl" := "{{ name }}"]> Demo.files).

Definition greetingBlock : ASTBlock :=
  mkASTBlock (mkChunk "capture" "greeting")
             [ASTText "Hello "; ASTObject "name"].

Definition failingBlock : ASTBlock :=
  mkASTBlock (mkChunk "capture" "greeting")
             [ASTText "a"; ASTFunctionalNode (mkASTFunctional (mkChunk "nosuch" ""))].

Definition crashingBlock : ASTBlock :=
  mkASTBlock (mkChunk "capture" "greeting")
             [ASTText "a"; ASTObject "name | crash"].

Definition c_greeting : renderContext unit :=
  mkRenderContext Demo.ctx0 None (Some greetingBlock).
Definition c_failing : renderContext unit :=
  mkRenderContext Demo.ctx0 None (Some failingBlock).
Definition c_crashing : renderContext unit :=
  mkRenderContext Demo.ctx0 None (Some crashingBlock).

(** A context whose bindings are the nil map: no table at its reference. *)
Definition c_nil : renderContext unit :=
  mkRenderContext (mkNodeContext 9%positive Demo.config) None None.


Definition clone_to (l : loc) (x : nodeContext unit) : M (nodeContext unit) := λ σ,
  Done (mkNodeContext l (settings x)) (<[l := default ∅ (σ !! bindings x)]> σ).

End Fixtures.

(** The store a computation leaves, whether it returned or panicked. *)
Definition final_store {A} (o : outcome A) : store :=
  match o with
  | Done _ σ => σ
  | Panicked _ σ => σ
  end.

(** A run is write-isolated for the table [m] when, if it returns, every
    name reads in [m] what it read before the run. *)
Definition write_isolated {A} (run : M A) (m : loc) (σ : store) : Prop :=
  ∀ res σ', run σ = Done res σ' → ∀ n, map_index σ' m n = map_index σ m n.

(** * Properties *)

(** ** Strings *)

Lemma append_cons (ch : ascii) (s t : string) :
  String ch s +:+ t = String ch (s +:+ t).
Proof. reflexivity. Qed.

Lemma append_nil_l (t : string) : "" +:+ t = t.
Proof. reflexivity. Qed.

Lemma append_nil_r (s : string) : s +:+ "" = s.
Proof.
  induction s as [|ch s IH]; [done |].
  by rewrite append_cons, IH.
Qed.

Lemma append_assoc (s t u : string) : (s +:+ t) +:+ u = s +:+ t +:+ u.
Proof.
  induction s as [|ch s IH]; [done |].
  by rewrite !append_cons, IH.
Qed.

Lemma HasPrefix_spec (s prefix : string) :
  HasPrefix s prefix = true ↔ ∃ t, s = prefix +:+ t.
Proof.
  revert s. induction prefix as [|a prefix IH]; intros s; simpl.
  - split; [intros _; by exists s | done].
  - destruct s as [|b s].
    + split; [done | intros [t Ht]; discriminate Ht].
    + case_decide as Hab.
      * subst b. rewrite IH. split.
        -- intros [t ->]. by exists t.
        -- intros [t Ht]. rewrite append_cons in Ht.
           injection Ht as ->. by exists t.
      * split; [done |]. intros [t Ht]. rewrite append_cons in Ht.
        injection Ht as -> _. done.
Qed.

(** [Contains] holds exactly of the strings with an occurrence of [substr]. *)
Lemma Contains_spec (s substr : string) :
  Contains s substr = true ↔ ∃ a b, s = a +:+ substr +:+ b.
Proof.
  induction s as [|ch s IH]; simpl.
  - destruct (HasPrefix "" substr) eqn:Hp.
    + apply HasPrefix_spec in Hp as [t Ht]. split; [|done].
      intros _. by exists "", t.
    + split; [done |]. intros [a [b Hab]].
      destruct a; [|discriminate Hab]. rewrite append_nil_l in Hab.
      assert (HasPrefix "" substr = true) as Hp'
        by (apply HasPrefix_spec; by exists b).
      congruence.
  - destruct (HasPrefix (String ch s) substr) eqn:Hp.
    + apply HasPrefix_spec in Hp as [t Ht]. split; [|done].
      intros _. by exists "", t.
    + rewrite IH. split.
      * intros [a [b ->]]. by exists (String ch a), b.
      * intros [a [b Hab]]. destruct a as [|ch' a].
        -- rewrite append_nil_l in Hab.
           assert (HasPrefix (String ch s) substr = true) as Hp'
             by (apply HasPrefix_spec; by exists b).
           congruence.
        -- rewrite append_cons in Hab. injection Hab as _ ->. by exists a, b.
Qed.

Lemma Sprintf_statement (tag source : string) :
  Sprintf "%%%s %s" [tag; source] = "%" +:+ tag +:+ " " +:+ source.
Proof.
  cbn [Sprintf]. rewrite append_nil_r.
  by rewrite !append_cons, !append_nil_l.
Qed.

Lemma Sprintf_during_evaluation (shown source : string) :
  Sprintf "%s during evaluation of %s" [shown; source]
  = shown +:+ " during evaluation of " +:+ source.
Proof.
  cbn [Sprintf]. by rewrite append_nil_r.
Qed.

(** ** Reading and writing the bindings *)

Section Bindings.
Context {ExprConfig : Type}.
Implicit Types (c : renderContext ExprConfig) (σ : store) (tbl : gmap string value).

Lemma map_index_assign (m : loc) (k : string) (v : value) σ tbl :
  σ !! m = Some tbl →
  map_assign m k v σ = Done () (<[m := <[k := v]> tbl]> σ).
Proof. intros H. unfold map_assign. by rewrite H. Qed.

Lemma map_index_insert_eq (m : loc) (k : string) (v : value) σ tbl :
  map_index (<[m := <[k := v]> tbl]> σ) m k = v.
Proof. unfold map_index. by rewrite !lookup_insert_eq. Qed.


(** C6: on a context whose bindings map is allocated, [Set(n, v)]
    followed by [Get(n)] returns exactly [v], whatever [n] was bound to
    before: the table then binds [n] to [v] and to nothing else. *)
Theorem Set_then_Get c (n : string) (v : value) σ tbl :
  σ !! bindings (ctx c) = Some tbl →
  (Set_ c n v ;; Get c n) σ
  = Done v (<[bindings (ctx c) := <[n := v]> tbl]> σ).
Proof.
  intros H. unfold Set_, Get, mbind, M_bind.
  rewrite (map_index_assign _ _ _ _ _ H).
  by rewrite map_index_insert_eq.
Qed.


(** Two render contexts over one node context share the table: what one
    sets, the other gets. *)
Lemma Set_seen_through_same_ctx c c' (n : string) (v : value) σ tbl :
  ctx c' = ctx c →
  σ !! bindings (ctx c) = Some tbl →
  (Set_ c' n v ;; Get c n) σ
  = Done v (<[bindings (ctx c) := <[n := v]> tbl]> σ).
Proof.
  intros Hctx H. unfold Set_, Get, mbind, M_bind. rewrite Hctx.
  rewrite (map_index_assign _ _ _ _ _ H).
  by rewrite map_index_insert_eq.
Qed.

(** On the nil map [Set] panics, as the Go assignment does. *)
Lemma Set_nil_map c (n : string) (v : value) σ :
  σ !! bindings (ctx c) = None →
  ∃ r, Set_ c n v σ = Panicked r σ.
Proof. intros H. unfold Set_, map_assign. rewrite H. eauto. Qed.

(** C7: for a name that the bindings do not hold, [Get] returns the nil
    value; it returns normally and leaves the store as it is. *)
Theorem Get_unbound c (n : string) σ :
  (∀ tbl, σ !! bindings (ctx c) = Some tbl → tbl !! n = None) →
  Get c n σ = Done VNil σ.
Proof.
  intros H. unfold Get, map_index.
  destruct (σ !! bindings (ctx c)) as [tbl|] eqn:Hm; [|done].
  by rewrite (H tbl eq_refl).
Qed.

(** [Get] never panics and never writes. *)
Lemma Get_total c (n : string) σ :
  ∃ v, Get c n σ = Done v σ.
Proof. unfold Get. eauto. Qed.

(** C10: without a functional node and without a block node, [TagName]
    and [TagArgs] are the empty string; with a functional node they are
    that node's name and arguments, whatever the block node is. *)
Theorem TagName_TagArgs_current_node
    (x : nodeContext ExprConfig) (n : ASTFunctional) (b : option ASTBlock) :
  TagName (mkRenderContext x None None) = ""
  ∧ TagArgs (mkRenderContext x None None) = ""
  ∧ TagName (mkRenderContext x (Some n) b) = Name (ASTFunctional_Chunk n)
  ∧ TagArgs (mkRenderContext x (Some n) b) = Args (ASTFunctional_Chunk n).
Proof. by destruct b. Qed.

(** With a block node only, the block's chunk is read. *)
Lemma TagName_TagArgs_block (x : nodeContext ExprConfig) (b : ASTBlock) :
  TagName (mkRenderContext x None (Some b)) = Name (ASTBlock_Chunk b)
  ∧ TagArgs (mkRenderContext x None (Some b)) = Args (ASTBlock_Chunk b).
Proof. done. Qed.

End Bindings.

(** ** The facade over its collaborators *)

Section Facade.
Context {ExprConfig : Type}.
Variable ReadFile : string → result string.
Variable eval : string → expression_Context ExprConfig → M (value * option error).
Variable rn : ASTNode → Writer → nodeContext ExprConfig → M (Writer * option error).
Variable rs : nodeContext ExprConfig → Writer → list ASTNode → M (Writer * option error).
Implicit Types (c : renderContext ExprConfig) (σ : store).

(** The expression context [EvaluateString] builds for [c]. *)
Local Abbreviation ec c :=
  (expression_NewContext (bindings (ctx c)) (ExpressionConfig (settings (ctx c)))).

(** Where the evaluator returns, [EvaluateString] returns the same. *)
Lemma EvaluateString_returns c (source : string) σ res σ' :
  eval source (ec c) σ = Done res σ' →
  EvaluateString eval c source σ = Done res σ'.
Proof. intros H. unfold EvaluateString, defer_recover. by rewrite H. Qed.

(** C1: a panic of the evaluator with an [InterpreterError] comes out of
    [EvaluateString] as a returned error; a panic with any other value
    comes out as a panic with an error that names the source text; and
    no panic leaves [EvaluateString] in another way. *)
Theorem EvaluateString_confines_panics c (source : string) σ :
  (∀ msg σ',
     eval source (ec c) σ = Panicked (FaultError (InterpreterError msg)) σ' →
     EvaluateString eval c source σ
     = Done (VNil, Some (InterpreterError msg)) σ')
  ∧ (∀ r σ',
       eval source (ec c) σ = Panicked r σ' →
       is_InterpreterError r = false →
       EvaluateString eval c source σ
       = Panicked (FaultError (errorString
                     (format_s r +:+ " during evaluation of " +:+ source))) σ')
  ∧ (∀ r σ',
       EvaluateString eval c source σ = Panicked r σ' →
       ∃ r0,
         eval source (ec c) σ = Panicked r0 σ'
         ∧ is_InterpreterError r0 = false
         ∧ r = FaultError (errorString
                 (format_s r0 +:+ " during evaluation of " +:+ source))).
Proof.
  unfold EvaluateString, defer_recover, Errorf.
  split; [|split].
  - intros msg σ' H. by rewrite H.
  - intros r σ' H Hr. rewrite H.
    destruct r as [[]|]; try discriminate Hr;
      by rewrite Sprintf_during_evaluation.
  - intros r σ'.
    destruct (eval source (ec c) σ) as [res σ1|r0 σ1]; [done |].
    destruct r0 as [[]|]; try done;
      rewrite Sprintf_during_evaluation; unfold panic; intros H;
      assert (σ1 = σ') as -> by congruence;
      eexists; (split; [reflexivity |]); (split; [done | congruence]).
Qed.

(** C8: [EvaluateStatement(t, s)] is [EvaluateString] on the text made
    of the percent sign, [t], a space and [s]: same value, same error,
    same panic, same store. *)
Theorem EvaluateStatement_delegates c (t s : string) :
  EvaluateStatement eval c t s
  = EvaluateString eval c ("%" +:+ t +:+ " " +:+ s).
Proof. unfold EvaluateStatement. by rewrite Sprintf_statement. Qed.

(** C9: without a block node [RenderChildren] returns no error and
    leaves the writer and the store as they are, and [InnerString]
    returns the empty string and no error. *)
Theorem RenderChildren_without_body c (w : Writer) σ :
  cn c = None →
  RenderChildren rs c w σ = Done (w, None) σ
  ∧ InnerString rs c σ = Done ("", None) σ.
Proof.
  intros H. unfold InnerString, RenderChildren. rewrite H. done.
Qed.

(** With a block node, [RenderChildren] renders that node's body. *)
Lemma RenderChildren_with_body c (w : Writer) (b : ASTBlock) :
  cn c = Some b →
  RenderChildren rs c w = rs (ctx c) w (ASTBlock_Body b).
Proof. intros H. unfold RenderChildren. by rewrite H. Qed.

(** C2: arguments without the delimiter are returned as they are, with
    no error and no effect; arguments with it are parsed and rendered on
    the context's own node context, and the rendered text is returned,
    or the parse error, or the render error. *)
Theorem ParseTagArgs_interpolates c σ :
  (Contains (TagArgs c) "{{" = false →
   ParseTagArgs rn c σ = Done (TagArgs c, None) σ)
  ∧ (Contains (TagArgs c) "{{" = true →
     (∀ e, Parse (settings (ctx c)) (TagArgs c) = Err e →
           ParseTagArgs rn c σ = Done ("", Some e) σ)
     ∧ (∀ p buf σ',
          Parse (settings (ctx c)) (TagArgs c) = Ok p →
          rn p new_Buffer (ctx c) σ = Done (buf, None) σ' →
          ParseTagArgs rn c σ = Done (Buffer_String buf, None) σ')
     ∧ (∀ p buf e σ',
          Parse (settings (ctx c)) (TagArgs c) = Ok p →
          rn p new_Buffer (ctx c) σ = Done (buf, Some e) σ' →
          ParseTagArgs rn c σ = Done ("", Some e) σ')).
Proof.
  unfold ParseTagArgs. split.
  - intros H. by rewrite H.
  - intros H. rewrite H. split; [|split].
    + intros e He. by rewrite He.
    + intros p buf σ' Hp Hr. rewrite Hp. unfold mbind, M_bind. by rewrite Hr.
    + intros p buf e σ' Hp Hr. rewrite Hp. unfold mbind, M_bind. by rewrite Hr.
Qed.

(** C3: a failed read ends [RenderFile] with the empty string and the
    read error, before anything is parsed or rendered; a failed parse
    ends it with the parse error, before anything is rendered; a failed
    render ends it with the render error. *)
Theorem RenderFile_stage_errors c (filename : string) σ :
  (∀ e, ReadFile filename = Err e →
        RenderFile ReadFile rn c filename σ = Done ("", Some e) σ)
  ∧ (∀ source e,
       ReadFile filename = Ok source →
       Parse (settings (ctx c)) source = Err e →
       RenderFile ReadFile rn c filename σ = Done ("", Some e) σ)
  ∧ (∀ source ast buf e σ',
       ReadFile filename = Ok source →
       Parse (settings (ctx c)) source = Ok ast →
       rn ast new_Buffer (ctx c) σ = Done (buf, Some e) σ' →
       RenderFile ReadFile rn c filename σ = Done ("", Some e) σ').
Proof.
  unfold RenderFile. split; [|split].
  - intros e He. by rewrite He.
  - intros source e Hs He. by rewrite Hs, He.
  - intros source ast buf e σ' Hs Ha Hr. rewrite Hs, Ha.
    unfold mbind, M_bind. by rewrite Hr.
Qed.

(** C4: once the file is read and parsed, [RenderFile] runs the renderer
    on the node context of [c] itself, in the store of the call, and
    returns what it wrote; a render context built on that node context
    reads every name as [c] does at the call. *)
Theorem RenderFile_renders_on_current_bindings c (filename source : string)
    (ast : ASTNode) σ :
  ReadFile filename = Ok source →
  Parse (settings (ctx c)) source = Ok ast →
  (∀ buf σ',
     rn ast new_Buffer (ctx c) σ = Done (buf, None) σ' →
     RenderFile ReadFile rn c filename σ = Done (Buffer_String buf, None) σ')
  ∧ (∀ nd b n, Get (mkRenderContext (ctx c) nd b) n σ = Get c n σ).
Proof.
  intros Hs Ha. split; [|done].
  intros buf σ' Hr. unfold RenderFile. rewrite Hs, Ha.
  unfold mbind, M_bind. by rewrite Hr.
Qed.

(** C5, as the code has it: [RenderFile] opens no scope of its own.  The
    included template is rendered on the bindings map of the calling
    context, so the store [RenderFile] leaves is the one the rendering
    of the included template leaves, writes included. *)
Theorem RenderFile_keeps_included_writes c (filename source : string)
    (ast : ASTNode) σ :
  ReadFile filename = Ok source →
  Parse (settings (ctx c)) source = Ok ast →
  final_store (RenderFile ReadFile rn c filename σ)
  = final_store (rn ast new_Buffer (ctx c) σ).
Proof.
  intros Hs Ha. unfold RenderFile. rewrite Hs, Ha.
  unfold mbind, M_bind.
  destruct (rn ast new_Buffer (ctx c) σ) as [[buf [e|]] σ'|r σ']; done.
Qed.

End Facade.

(** ** [UpdateBindings] *)

Section Merge.
Context {ExprConfig : Type}.
Implicit Types (c : renderContext ExprConfig) (σ : store) (tbl : gmap string value).

Lemma range_assign_allocated (m : loc) (entries : list (string * value)) σ tbl :
  σ !! m = Some tbl →
  range_assign m entries σ
  = Done () (<[m := foldl (λ t kv, <[kv.1 := kv.2]> t) tbl entries]> σ).
Proof.
  revert σ tbl. induction entries as [|[k v] rest IH]; intros σ tbl H; simpl.
  - by rewrite insert_id.
  - unfold mbind, M_bind. rewrite (map_index_assign _ _ _ _ _ H).
    rewrite (IH _ (<[k := v]> tbl)) by apply lookup_insert_eq.
    by rewrite insert_insert_eq.
Qed.

Lemma foldl_insert_lookup (entries : list (string * value)) tbl (k : string) :
  NoDup entries.*1 →
  foldl (λ t kv, <[kv.1 := kv.2]> t) tbl entries !! k
  = match (list_to_map entries : gmap string value) !! k with
    | Some v => Some v
    | None => tbl !! k
    end.
Proof.
  revert tbl. induction entries as [|[k0 v0] rest IH]; intros tbl Hnd; simpl.
  - by rewrite lookup_empty.
  - apply NoDup_cons in Hnd as [Hk0 Hnd]. rewrite (IH _ Hnd).
    destruct (decide (k0 = k)) as [->|Hne].
    + rewrite !lookup_insert_eq.
      by rewrite (not_elem_of_list_to_map_1 _ _ Hk0).
    + by rewrite !lookup_insert_ne.
Qed.

(** [UpdateBindings] merges the given pairs into the table of the context
    itself: a given name takes the given value, every other name keeps
    its own. *)
Lemma UpdateBindings_merges c (b : gmap string value) σ tbl :
  σ !! bindings (ctx c) = Some tbl →
  UpdateBindings c b σ = Done () (<[bindings (ctx c) := b ∪ tbl]> σ).
Proof.
  intros H. unfold UpdateBindings.
  rewrite (range_assign_allocated _ _ _ _ H). do 2 f_equal.
  apply map_eq. intros k.
  rewrite foldl_insert_lookup by apply NoDup_fst_map_to_list.
  rewrite list_to_map_to_list, lookup_union.
  by destruct (b !! k), (tbl !! k).
Qed.

End Merge.

(** ** The renderer of the specification under [RenderFile] *)

Section Included.
Context {ExprConfig : Type}.
Variable ReadFile : string → result string.
Variable eval : string → expression_Context ExprConfig → M (value * option error).
Variable registry : string → option SpecModel.tag_renderer.
Implicit Types (c : renderContext ExprConfig) (σ : store).

Local Abbreviation renderer d := (SpecModel.renderNode ReadFile eval registry d).

(** An expression of an included file is evaluated on the bindings map of
    the including context, in the store of the call. *)
Lemma included_object_reads_caller c (filename source expr : string)
    (d : nat) (v : value) σ σ' :
  ReadFile filename = Ok source →
  Parse (settings (ctx c)) source = Ok (ASTObject expr) →
  eval expr (expression_NewContext (bindings (ctx c))
                                   (ExpressionConfig (settings (ctx c)))) σ
  = Done (v, None) σ' →
  RenderFile ReadFile (renderer (S d)) c filename σ
  = Done (SpecModel.writeObject v, None) σ'.
Proof.
  intros Hs Ha He. unfold RenderFile. rewrite Hs, Ha. simpl.
  unfold mbind, M_bind.
  by rewrite (EvaluateString_returns eval (mkRenderContext (ctx c) None None)
                _ _ _ _ He).
Qed.

(** A tag of an included file that calls [Set] writes the table of the
    including context: after [RenderFile] the caller gets the value. *)
Lemma included_Set_reaches_caller c (filename source : string)
    (nd : ASTFunctional) (d : nat) (n : string) (v : value) σ tbl :
  ReadFile filename = Ok source →
  Parse (settings (ctx c)) source = Ok (ASTFunctionalNode nd) →
  registry (Name (ASTFunctional_Chunk nd))
  = Some (λ w C, TagContext.Set_ C n v ;; mret (w, None)) →
  σ !! bindings (ctx c) = Some tbl →
  (RenderFile ReadFile (renderer (S d)) c filename ;; Get c n) σ
  = Done v (<[bindings (ctx c) := <[n := v]> tbl]> σ).
Proof.
  intros Hs Ha Hreg H. unfold RenderFile. rewrite Hs, Ha. simpl.
  unfold TagName; simpl. rewrite Hreg. simpl.
  unfold mbind, M_bind, Set_, Get; simpl.
  rewrite (map_index_assign _ _ _ _ _ H). simpl.
  by rewrite map_index_insert_eq.
Qed.

End Included.

(** ** Runs on the small instance *)

(** The examples of the specification: arguments without delimiter come
    back as they are, and [{{ name }}] with [name] bound to [x] gives [x]. *)
Example ParseTagArgs_interpolated :
  ParseTagArgs (Demo.renderNode Demo.files 5) Demo.c_include Demo.store0
  = Done ("x", None) Demo.store0.
Proof. reflexivity. Qed.

Example RenderFile_greeting :
  RenderFile (Demo.ReadFile Demo.files) (Demo.renderNode Demo.files 5)
    Demo.c_plain "greet.tpl" Demo.store0
  = Done ("Hello x!", None) Demo.store0.
Proof. reflexivity. Qed.

(** A sequence of text, an assignment and text writes both texts and
    leaves the assigned name bound. *)
Example RenderASTSequence_assigns :
  Demo.RenderASTSequence Demo.files 5 Demo.ctx0 ""
    [ASTText "A";
     ASTFunctionalNode (mkASTFunctional (mkChunk "assign" "y = name"));
     ASTText "B"] Demo.store0
  = Done ("AB", None)
      (<[1%positive := <["y" := VString "x"]> {["name" := VString "x"]}]>
         Demo.store0).
Proof. reflexivity. Qed.

Lemma Set_then_Get_witness :
  Demo.store0 !! bindings (ctx Demo.c_plain) = Some {["name" := VString "x"]}
  ∧ (Set_ Demo.c_plain "name" (VInt 7) ;; Get Demo.c_plain "name") Demo.store0
    = Done (VInt 7)
        (<[1%positive := <["name" := VInt 7]> {["name" := VString "x"]}]>
           Demo.store0).
Proof.
  split; [reflexivity |].
  apply (Set_then_Get Demo.c_plain "name" (VInt 7) Demo.store0
           {["name" := VString "x"]}).
  reflexivity.
Defined.

Lemma Get_unbound_witness :
  Get Demo.c_plain "missing" Demo.store0 = Done VNil Demo.store0.
Proof.
  apply (Get_unbound Demo.c_plain "missing" Demo.store0).
  intros tbl H. injection H as <-. reflexivity.
Defined.

Lemma EvaluateString_confines_panics_witness :
  EvaluateString Demo.EvaluateString Demo.c_plain "name | upcase" Demo.store0
  = Done (VNil, Some (InterpreterError "undefined filter: upcase")) Demo.store0
  ∧ EvaluateString Demo.EvaluateString Demo.c_plain "name | crash" Demo.store0
    = Panicked
        (FaultError
           (errorString
              "runtime error: index out of range during evaluation of name | crash"))
        Demo.store0.
Proof.
  split.
  - exact (proj1 (EvaluateString_confines_panics Demo.EvaluateString
                    Demo.c_plain "name | upcase" Demo.store0)
             "undefined filter: upcase" Demo.store0 eq_refl).
  - exact (proj1 (proj2 (EvaluateString_confines_panics Demo.EvaluateString
                           Demo.c_plain "name | crash" Demo.store0))
             (FaultValue "runtime error: index out of range") Demo.store0
             eq_refl eq_refl).
Defined.

Lemma RenderChildren_without_body_witness :
  RenderChildren (Demo.RenderASTSequence Demo.files 5) Demo.c_include "out"
    Demo.store0
  = Done ("out", None) Demo.store0
  ∧ InnerString (Demo.RenderASTSequence Demo.files 5) Demo.c_include Demo.store0
    = Done ("", None) Demo.store0.
Proof.
  apply (RenderChildren_without_body (Demo.RenderASTSequence Demo.files 5)
           Demo.c_include "out" Demo.store0).
  reflexivity.
Defined.

Lemma ParseTagArgs_interpolates_witness :
  ParseTagArgs (Demo.renderNode Demo.files 5) Demo.c_plain Demo.store0
  = Done ("", None) Demo.store0
  ∧ ParseTagArgs (Demo.renderNode Demo.files 5) Demo.c_include Demo.store0
    = Done ("x", None) Demo.store0.
Proof.
  split.
  - exact (proj1 (ParseTagArgs_interpolates (Demo.renderNode Demo.files 5)
                    Demo.c_plain Demo.store0) eq_refl).
  - exact (proj1 (proj2 (proj2 (ParseTagArgs_interpolates
                                  (Demo.renderNode Demo.files 5)
                                  Demo.c_include Demo.store0) eq_refl))
             (ASTSeq [ASTObject "name"]) "x" Demo.store0 eq_refl eq_refl).
Defined.

Lemma RenderFile_stage_errors_witness :
  RenderFile (Demo.ReadFile Demo.files) (Demo.renderNode Demo.files 5)
    Demo.c_plain "missing.tpl" Demo.store0
  = Done ("", Some (PathError "open" "missing.tpl" "no such file or directory"))
      Demo.store0
  ∧ RenderFile (Demo.ReadFile Demo.files) (Demo.renderNode Demo.files 5)
      Demo.c_plain "bad.tpl" Demo.store0
    = Done ("", Some (SourceError "parser.Error" "unterminated object"))
        Demo.store0
  ∧ RenderFile (Demo.ReadFile Demo.files) (Demo.renderNode Demo.files 5)
      Demo.c_plain "fail.tpl" Demo.store0
    = Done ("", Some (InterpreterError "undefined filter: upcase")) Demo.store0.
Proof.
  split; [|split].
  - exact (proj1 (RenderFile_stage_errors (Demo.ReadFile Demo.files)
                    (Demo.renderNode Demo.files 5) Demo.c_plain "missing.tpl"
                    Demo.store0)
             _ eq_refl).
  - exact (proj1 (proj2 (RenderFile_stage_errors (Demo.ReadFile Demo.files)
                           (Demo.renderNode Demo.files 5) Demo.c_plain "bad.tpl"
                           Demo.store0))
             "Hello {{ name" _ eq_refl eq_refl).
  - exact (proj2 (proj2 (RenderFile_stage_errors (Demo.ReadFile Demo.files)
                           (Demo.renderNode Demo.files 5) Demo.c_plain "fail.tpl"
                           Demo.store0))
             "{% assign y = name | upcase %}"
             (ASTSeq [ASTFunctionalNode
                        (mkASTFunctional (mkChunk "assign" "y = name | upcase"))])
             "" _ Demo.store0 eq_refl eq_refl eq_refl).
Defined.

Lemma RenderFile_renders_on_current_bindings_witness :
  RenderFile (Demo.ReadFile Demo.files) (Demo.renderNode Demo.files 5)
    Demo.c_plain "greet.tpl" Demo.store0
  = Done ("Hello x!", None) Demo.store0.
Proof.
  exact (proj1 (RenderFile_renders_on_current_bindings
                  (Demo.ReadFile Demo.files) (Demo.renderNode Demo.files 5)
                  Demo.c_plain "greet.tpl" "Hello {{ name }}!"
                  (ASTSeq [ASTText "Hello "; ASTObject "name"; ASTText "!"])
                  Demo.store0 eq_refl eq_refl)
           "Hello x!" Demo.store0 eq_refl).
Defined.

Lemma RenderFile_keeps_included_writes_witness :
  final_store (RenderFile (Demo.ReadFile Demo.files)
                 (Demo.renderNode Demo.files 5) Demo.c_plain "set.tpl"
                 Demo.store0)
  = final_store (Demo.renderNode Demo.files 5
                   (ASTSeq [ASTFunctionalNode
                              (mkASTFunctional (mkChunk "assign" "y = name"))])
                   new_Buffer Demo.ctx0 Demo.store0).
Proof.
  exact (RenderFile_keeps_included_writes (Demo.ReadFile Demo.files)
           (Demo.renderNode Demo.files 5) Demo.c_plain "set.tpl"
           "{% assign y = name %}"
           (ASTSeq [ASTFunctionalNode
                      (mkASTFunctional (mkChunk "assign" "y = name"))])
           Demo.store0 eq_refl eq_refl).
Defined.

(** C5, as stated, fails: the included file [set.tpl] assigns [y], and
    after [RenderFile] returns the including context reads the new value
    where it read nil before. *)
Lemma RenderFile_not_write_isolated :
  ¬ write_isolated
      (RenderFile (Demo.ReadFile Demo.files) (Demo.renderNode Demo.files 5)
         Demo.c_plain "set.tpl")
      (bindings (ctx Demo.c_plain)) Demo.store0.
Proof.
  intros H.
  specialize (H ("", None)
                (<[1%positive := <["y" := VString "x"]> {["name" := VString "x"]}]>
                   Demo.store0)
                eq_refl "y").
  vm_compute in H. discriminate H.
Qed.

(** ** More on the bindings *)

Section Scope.
Context {ExprConfig : Type}.
Implicit Types (c : renderContext ExprConfig) (σ : store) (tbl : gmap string value).

(** X1: on an allocated map [UpdateBindings] leaves the given pairs over
    the old table: afterwards a given name reads its given value, and a
    name that is not given reads what it read before. *)
Theorem UpdateBindings_merges_into_scope c (b : gmap string value) σ tbl :
  σ !! bindings (ctx c) = Some tbl →
  UpdateBindings c b σ = Done () (<[bindings (ctx c) := b ∪ tbl]> σ)
  ∧ (∀ k v, b !! k = Some v →
       (UpdateBindings c b ;; Get c k) σ
       = Done v (<[bindings (ctx c) := b ∪ tbl]> σ))
  ∧ (∀ k, b !! k = None →
       (UpdateBindings c b ;; Get c k) σ
       = Done (map_index σ (bindings (ctx c)) k)
              (<[bindings (ctx c) := b ∪ tbl]> σ)).
Proof.
  intros H. pose proof (UpdateBindings_merges c b σ tbl H) as Hm.
  split; [done |]. split.
  - intros k v Hk. unfold mbind, M_bind. rewrite Hm.
    unfold Get, map_index. rewrite lookup_insert_eq.
    by rewrite (lookup_union_Some_l _ _ _ _ Hk).
  - intros k Hk. unfold mbind, M_bind. rewrite Hm.
    unfold Get, map_index. rewrite lookup_insert_eq, H.
    by rewrite (lookup_union_r _ _ _ Hk).
Qed.

(** X2: [UpdateBindings] with no pair does nothing, on any store; with a
    pair, on the nil map, it panics as the first assignment does and
    leaves the store as it is. *)
Theorem UpdateBindings_on_nil_map c (b : gmap string value) σ :
  UpdateBindings c ∅ σ = Done () σ
  ∧ (σ !! bindings (ctx c) = None → b ≠ ∅ →
     UpdateBindings c b σ
     = Panicked (FaultError (errorString "assignment to entry in nil map")) σ).
Proof.
  split.
  - unfold UpdateBindings. by rewrite map_to_list_empty.
  - intros H Hb. unfold UpdateBindings.
    destruct (map_to_list b) as [|[k v] rest] eqn:Hl.
    + by apply map_to_list_empty_iff in Hl.
    + simpl. unfold mbind, M_bind, map_assign. by rewrite H.
Qed.

(** X3: on the nil map [Get] still returns nil, while [Set] panics with
    the run-time error of the assignment and writes nothing. *)
Theorem Set_on_nil_map c (n : string) (v : value) σ :
  σ !! bindings (ctx c) = None →
  Get c n σ = Done VNil σ
  ∧ Set_ c n v σ
    = Panicked (FaultError (errorString "assignment to entry in nil map")) σ.
Proof.
  intros H. unfold Get, Set_, map_index, map_assign. by rewrite H.
Qed.


(** X5: of two [Set] calls on one name the second alone counts, and two
    [Set] calls on different names can be swapped. *)
Theorem Set_last_write_wins c (n n' : string) (v v' : value) σ tbl :
  σ !! bindings (ctx c) = Some tbl →
  (Set_ c n v ;; Set_ c n v') σ = Set_ c n v' σ
  ∧ (n ≠ n' →
     (Set_ c n v ;; Set_ c n' v') σ = (Set_ c n' v' ;; Set_ c n v) σ).
Proof.
  intros H. unfold Set_, mbind, M_bind.
  rewrite !(map_index_assign _ _ _ _ _ H).
  split.
  - unfold map_assign at 1. rewrite lookup_insert_eq.
    by rewrite !insert_insert_eq.
  - intros Hne. unfold map_assign. rewrite !lookup_insert_eq.
    rewrite !insert_insert_eq. by rewrite (insert_insert_ne _ n n').
Qed.


(** X7: [UpdateBindings] with a single pair is [Set] of that pair, on
    every store, the nil map included. *)
Theorem UpdateBindings_singleton_is_Set c (n : string) (v : value) σ :
  UpdateBindings c {[n := v]} σ = Set_ c n v σ.
Proof.
  unfold UpdateBindings, Set_. rewrite map_to_list_singleton. simpl.
  unfold mbind, M_bind, map_assign.
  by destruct (σ !! bindings (ctx c)).
Qed.

End Scope.

(** ** More on the facade *)

Section Calls.
Context {ExprConfig : Type}.
Variable ReadFile : string → result string.
Variable eval : string → expression_Context ExprConfig → M (value * option error).
Variable rn : ASTNode → Writer → nodeContext ExprConfig → M (Writer * option error).
Variable rs : nodeContext ExprConfig → Writer → list ASTNode → M (Writer * option error).
Variable clone : nodeContext ExprConfig → M (nodeContext ExprConfig).
Implicit Types (c : renderContext ExprConfig) (σ : store).

Local Abbreviation ec c :=
  (expression_NewContext (bindings (ctx c)) (ExpressionConfig (settings (ctx c)))).

(** X8: with a block node, [RenderChildren] is [RenderChild] on that
    node; without one the two part: [RenderChildren] does nothing, where
    [RenderChild] on the nil pointer panics. *)
Theorem RenderChildren_is_RenderChild_on_current_block c (w : Writer) σ :
  (∀ b, cn c = Some b →
        RenderChildren rs c w σ = RenderChild rs c w (cn c) σ)
  ∧ (cn c = None →
     RenderChildren rs c w σ = Done (w, None) σ
     ∧ RenderChild rs c w (cn c) σ
       = Panicked (FaultError (errorString
                     "runtime error: invalid memory address or nil pointer dereference")) σ).
Proof.
  unfold RenderChildren, RenderChild. split.
  - intros b H. by rewrite H.
  - intros H. by rewrite H.
Qed.

(** X9: with a block node, [InnerString] returns the text that the
    node's body renders into an empty buffer; when the body fails it
    returns the error and the empty string, not the text written before
    the failure.  Either way the store is the one the body left. *)
Theorem InnerString_with_body c (b : ASTBlock) σ :
  cn c = Some b →
  (∀ buf σ',
     rs (ctx c) new_Buffer (ASTBlock_Body b) σ = Done (buf, None) σ' →
     InnerString rs c σ = Done (buf, None) σ')
  ∧ (∀ buf e σ',
       rs (ctx c) new_Buffer (ASTBlock_Body b) σ = Done (buf, Some e) σ' →
       InnerString rs c σ = Done ("", Some e) σ').
Proof.
  intros H. unfold InnerString, RenderChildren. rewrite H.
  unfold mbind, M_bind.
  split; intros; by match goal with Hr : rs _ _ _ _ = _ |- _ => rewrite Hr end.
Qed.

(** X10: only [EvaluateString] recovers.  A panic of the renderer passes
    through [RenderFile], [ParseTagArgs] and [InnerString] with the same
    value and the same store. *)
Theorem renderer_panics_pass_through c (r : fault) σ σ' :
  (∀ filename source ast,
     ReadFile filename = Ok source →
     Parse (settings (ctx c)) source = Ok ast →
     rn ast new_Buffer (ctx c) σ = Panicked r σ' →
     RenderFile ReadFile rn c filename σ = Panicked r σ')
  ∧ (∀ p,
       Contains (TagArgs c) "{{" = true →
       Parse (settings (ctx c)) (TagArgs c) = Ok p →
       rn p new_Buffer (ctx c) σ = Panicked r σ' →
       ParseTagArgs rn c σ = Panicked r σ')
  ∧ (∀ b,
       cn c = Some b →
       rs (ctx c) new_Buffer (ASTBlock_Body b) σ = Panicked r σ' →
       InnerString rs c σ = Panicked r σ').
Proof.
  split; [|split].
  - intros filename source ast Hs Ha Hr. unfold RenderFile.
    rewrite Hs, Ha. unfold mbind, M_bind. by rewrite Hr.
  - intros p Hc Hp Hr. unfold ParseTagArgs. rewrite Hc, Hp.
    unfold mbind, M_bind. by rewrite Hr.
  - intros b Hb Hr. unfold InnerString, RenderChildren. rewrite Hb.
    unfold mbind, M_bind. by rewrite Hr.
Qed.

(** X11: what [EvaluateString] returns is either what the evaluator
    returned, or the nil value with the [InterpreterError] the evaluator
    panicked with: a value other than nil is always the evaluator's own. *)
Theorem EvaluateString_result_origin c (source : string) σ v err σ' :
  EvaluateString eval c source σ = Done (v, err) σ' →
  eval source (ec c) σ = Done (v, err) σ'
  ∨ (∃ msg,
       eval source (ec c) σ = Panicked (FaultError (InterpreterError msg)) σ'
       ∧ v = VNil ∧ err = Some (InterpreterError msg)).
Proof.
  unfold EvaluateString, defer_recover.
  destruct (eval source (ec c) σ) as [res σ1|r0 σ1]; [by left |].
  destruct r0 as [[msg| | |]|]; try discriminate.
  intros [= <- <- <-]. right. by exists msg.
Qed.

(** X12: the guard of [EvaluateString] rolls nothing back: returned,
    recovered or panicking again, it leaves the store the evaluator left. *)
Theorem EvaluateString_keeps_evaluator_writes c (source : string) σ :
  final_store (EvaluateString eval c source σ)
  = final_store (eval source (ec c) σ).
Proof.
  unfold EvaluateString, defer_recover.
  destruct (eval source (ec c) σ) as [res σ1|r0 σ1]; [done |].
  by destruct r0 as [[]|].
Qed.

(** X13: [EvaluateStatement] is guarded as [EvaluateString] is, and the
    text its second panic names is the whole statement, percent sign and
    tag included, not the source alone. *)
Theorem EvaluateStatement_confines_panics c (t s : string) σ :
  (∀ msg σ',
     eval ("%" +:+ t +:+ " " +:+ s) (ec c) σ
     = Panicked (FaultError (InterpreterError msg)) σ' →
     EvaluateStatement eval c t s σ
     = Done (VNil, Some (InterpreterError msg)) σ')
  ∧ (∀ r σ',
       eval ("%" +:+ t +:+ " " +:+ s) (ec c) σ = Panicked r σ' →
       is_InterpreterError r = false →
       EvaluateStatement eval c t s σ
       = Panicked (FaultError (errorString
                     (format_s r +:+ " during evaluation of "
                      +:+ "%" +:+ t +:+ " " +:+ s))) σ').
Proof.
  unfold EvaluateStatement. rewrite Sprintf_statement.
  unfold EvaluateString, defer_recover, Errorf. split.
  - intros msg σ' H. by rewrite H.
  - intros r σ' H Hr. rewrite H.
    destruct r as [[]|]; try discriminate Hr;
      by rewrite Sprintf_during_evaluation.
Qed.

(** X14: [Clone] changes the node context only: the clone has the same
    current node, so the same tag name and arguments, and sits on the
    node context that [nodeContext.Clone] returned. *)
Theorem Clone_keeps_current_node c (x : nodeContext ExprConfig) σ σ' :
  clone (ctx c) σ = Done x σ' →
  ∃ c', Clone clone c σ = Done c' σ'
        ∧ ctx c' = x ∧ node c' = node c ∧ cn c' = cn c
        ∧ TagName c' = TagName c ∧ TagArgs c' = TagArgs c.
Proof.
  intros H. unfold Clone, mbind, M_bind. rewrite H.
  eexists. split; [reflexivity |]. done.
Qed.

(** X15: around no node there are no arguments, and [ParseTagArgs]
    returns the empty string without parsing or rendering anything. *)
Theorem ParseTagArgs_without_node c σ :
  node c = None → cn c = None →
  ParseTagArgs rn c σ = Done ("", None) σ.
Proof.
  intros Hn Hb. unfold ParseTagArgs, TagArgs. by rewrite Hn, Hb.
Qed.

(** X16: arguments with the delimiter are treated as the text of an
    included file is: [ParseTagArgs] does what [RenderFile] does on a
    file that holds the arguments. *)
Theorem ParseTagArgs_as_RenderFile c (filename : string) σ :
  Contains (TagArgs c) "{{" = true →
  ReadFile filename = Ok (TagArgs c) →
  ParseTagArgs rn c σ = RenderFile ReadFile rn c filename σ.
Proof.
  intros Hc Hf. unfold ParseTagArgs, RenderFile. by rewrite Hc, Hf.
Qed.

(** X17: the current node matters to the tag accessors and to the
    rendering of children only: two contexts on one node context get,
    set, merge, evaluate and include alike. *)
Theorem current_node_is_not_read c c' :
  ctx c = ctx c' →
  (∀ n, Get c n = Get c' n)
  ∧ (∀ n v, Set_ c n v = Set_ c' n v)
  ∧ (∀ b, UpdateBindings c b = UpdateBindings c' b)
  ∧ (∀ source, EvaluateString eval c source = EvaluateString eval c' source)
  ∧ (∀ t s, EvaluateStatement eval c t s = EvaluateStatement eval c' t s)
  ∧ (∀ w b, RenderChild rs c w b = RenderChild rs c' w b)
  ∧ (∀ filename, RenderFile ReadFile rn c filename
                 = RenderFile ReadFile rn c' filename).
Proof.
  intros H.
  unfold Get, Set_, UpdateBindings, EvaluateStatement, EvaluateString,
    RenderChild, RenderFile.
  rewrite H. done.
Qed.

End Calls.

(** ** More runs on the small instance *)

Lemma UpdateBindings_merges_into_scope_witness :
  (UpdateBindings Demo.c_plain {["y" := VInt 2]} ;; Get Demo.c_plain "y")
    Demo.store0
  = Done (VInt 2)
      (<[1%positive := {["y" := VInt 2]} ∪ {["name" := VString "x"]}]>
         Demo.store0)
  ∧ (UpdateBindings Demo.c_plain {["y" := VInt 2]} ;; Get Demo.c_plain "name")
      Demo.store0
    = Done (VString "x")
        (<[1%positive := {["y" := VInt 2]} ∪ {["name" := VString "x"]}]>
           Demo.store0).
Proof.
  split.
  - exact (proj1 (proj2 (UpdateBindings_merges_into_scope Demo.c_plain
                           {["y" := VInt 2]} Demo.store0
                           {["name" := VString "x"]} eq_refl))
             "y" (VInt 2) eq_refl).
  - exact (proj2 (proj2 (UpdateBindings_merges_into_scope Demo.c_plain
                           {["y" := VInt 2]} Demo.store0
                           {["name" := VString "x"]} eq_refl))
             "name" eq_refl).
Defined.

Lemma UpdateBindings_on_nil_map_witness :
  UpdateBindings Fixtures.c_nil {["y" := VInt 2]} Demo.store0
  = Panicked (FaultError (errorString "assignment to entry in nil map"))
      Demo.store0.
Proof.
  apply (proj2 (UpdateBindings_on_nil_map Fixtures.c_nil {["y" := VInt 2]}
                  Demo.store0)).
  - reflexivity.
  - intros Hb. apply (f_equal (λ m : gmap string value, m !! "y")) in Hb.
    vm_compute in Hb. discriminate Hb.
Defined.

Lemma Set_on_nil_map_witness :
  Get Fixtures.c_nil "name" Demo.store0 = Done VNil Demo.store0
  ∧ Set_ Fixtures.c_nil "name" (VInt 1) Demo.store0
    = Panicked (FaultError (errorString "assignment to entry in nil map"))
        Demo.store0.
Proof.
  apply (Set_on_nil_map Fixtures.c_nil "name" (VInt 1) Demo.store0).
  reflexivity.
Defined.


Lemma Set_last_write_wins_witness :
  (Set_ Demo.c_plain "y" (VInt 1) ;; Set_ Demo.c_plain "y" (VInt 2)) Demo.store0
  = Set_ Demo.c_plain "y" (VInt 2) Demo.store0
  ∧ (Set_ Demo.c_plain "y" (VInt 1) ;; Set_ Demo.c_plain "z" (VInt 2)) Demo.store0
    = (Set_ Demo.c_plain "z" (VInt 2) ;; Set_ Demo.c_plain "y" (VInt 1)) Demo.store0.
Proof.
  split.
  - exact (proj1 (Set_last_write_wins Demo.c_plain "y" "z" (VInt 1) (VInt 2)
                    Demo.store0 {["name" := VString "x"]} eq_refl)).
  - apply (proj2 (Set_last_write_wins Demo.c_plain "y" "z" (VInt 1) (VInt 2)
                    Demo.store0 {["name" := VString "x"]} eq_refl)).
    intros H. discriminate H.
Defined.


Lemma RenderChildren_is_RenderChild_on_current_block_witness :
  RenderChildren (Demo.RenderASTSequence Demo.files 5) Fixtures.c_greeting ""
    Demo.store0
  = RenderChild (Demo.RenderASTSequence Demo.files 5) Fixtures.c_greeting ""
      (Some Fixtures.greetingBlock) Demo.store0
  ∧ RenderChild (Demo.RenderASTSequence Demo.files 5) Demo.c_plain "" None
      Demo.store0
    = Panicked (FaultError (errorString
                  "runtime error: invalid memory address or nil pointer dereference"))
        Demo.store0.
Proof.
  split.
  - exact (proj1 (RenderChildren_is_RenderChild_on_current_block
                    (Demo.RenderASTSequence Demo.files 5) Fixtures.c_greeting
                    "" Demo.store0)
             Fixtures.greetingBlock eq_refl).
  - exact (proj2 (proj2 (RenderChildren_is_RenderChild_on_current_block
                           (Demo.RenderASTSequence Demo.files 5) Demo.c_plain
                           "" Demo.store0)
                    eq_refl)).
Defined.

Lemma InnerString_with_body_witness :
  InnerString (Demo.RenderASTSequence Demo.files 5) Fixtures.c_greeting
    Demo.store0
  = Done ("Hello x", None) Demo.store0
  ∧ InnerString (Demo.RenderASTSequence Demo.files 5) Fixtures.c_failing
      Demo.store0
    = Done ("", Some (SourceError "render.Error" "unknown tag: nosuch"))
        Demo.store0.
Proof.
  split.
  - exact (proj1 (InnerString_with_body (Demo.RenderASTSequence Demo.files 5)
                    Fixtures.c_greeting Fixtures.greetingBlock Demo.store0
                    eq_refl)
             "Hello x" Demo.store0 eq_refl).
  - exact (proj2 (InnerString_with_body (Demo.RenderASTSequence Demo.files 5)
                    Fixtures.c_failing Fixtures.failingBlock Demo.store0
                    eq_refl)
             "a" _ Demo.store0 eq_refl).
Defined.

Lemma renderer_panics_pass_through_witness :
  RenderFile (Demo.ReadFile Fixtures.files) (Demo.renderNode Fixtures.files 5)
    Demo.c_plain "crash.tpl" Demo.store0
  = Panicked
      (FaultError
         (errorString
            "runtime error: index out of range during evaluation of name | crash"))
      Demo.store0
  ∧ ParseTagArgs (Demo.renderNode Fixtures.files 5)
      (mkRenderContext Demo.ctx0
         (Some (mkASTFunctional (mkChunk "include" "{{ name | crash }}"))) None)
      Demo.store0
    = Panicked
        (FaultError
           (errorString
              "runtime error: index out of range during evaluation of name | crash"))
        Demo.store0
  ∧ InnerString (Demo.RenderASTSequence Fixtures.files 5) Fixtures.c_crashing
      Demo.store0
    = Panicked
        (FaultError
           (errorString
              "runtime error: index out of range during evaluation of name | crash"))
        Demo.store0.
Proof.
  split; [|split].
  - exact (proj1 (renderer_panics_pass_through (Demo.ReadFile Fixtures.files)
                    (Demo.renderNode Fixtures.files 5)
                    (Demo.RenderASTSequence Fixtures.files 5)
                    Demo.c_plain _ Demo.store0 Demo.store0)
             "crash.tpl" "{{ name | crash }}"
             (ASTSeq [ASTObject "name | crash"]) eq_refl eq_refl eq_refl).
  - exact (proj1 (proj2 (renderer_panics_pass_through
                           (Demo.ReadFile Fixtures.files)
                           (Demo.renderNode Fixtures.files 5)
                           (Demo.RenderASTSequence Fixtures.files 5)
                           (mkRenderContext Demo.ctx0
                              (Some (mkASTFunctional
                                       (mkChunk "include" "{{ name | crash }}")))
                              None)
                           _ Demo.store0 Demo.store0))
             (ASTSeq [ASTObject "name | crash"]) eq_refl eq_refl eq_refl).
  - exact (proj2 (proj2 (renderer_panics_pass_through
                           (Demo.ReadFile Fixtures.files)
                           (Demo.renderNode Fixtures.files 5)
                           (Demo.RenderASTSequence Fixtures.files 5)
                           Fixtures.c_crashing _ Demo.store0 Demo.store0))
             Fixtures.crashingBlock eq_refl eq_refl).
Defined.

Lemma EvaluateString_result_origin_witness :
  Demo.EvaluateString "name"
    (expression_NewContext (bindings (ctx Demo.c_plain))
       (ExpressionConfig (settings (ctx Demo.c_plain)))) Demo.store0
  = Done (VString "x", None) Demo.store0
  ∨ (∃ msg,
       Demo.EvaluateString "name"
         (expression_NewContext (bindings (ctx Demo.c_plain))
            (ExpressionConfig (settings (ctx Demo.c_plain)))) Demo.store0
       = Panicked (FaultError (InterpreterError msg)) Demo.store0
       ∧ VString "x" = VNil ∧ None = Some (InterpreterError msg)).
Proof.
  exact (EvaluateString_result_origin Demo.EvaluateString Demo.c_plain "name"
           Demo.store0 (VString "x") None Demo.store0 eq_refl).
Defined.

Lemma EvaluateStatement_confines_panics_witness :
  EvaluateStatement Demo.EvaluateString Demo.c_plain "assign" "y = name | upcase"
    Demo.store0
  = Done (VNil, Some (InterpreterError "undefined filter: upcase")) Demo.store0
  ∧ EvaluateStatement Demo.EvaluateString Demo.c_plain "assign"
      "y = name | crash" Demo.store0
    = Panicked
        (FaultError
           (errorString
              "runtime error: index out of range during evaluation of %assign y = name | crash"))
        Demo.store0.
Proof.
  split.
  - exact (proj1 (EvaluateStatement_confines_panics Demo.EvaluateString
                    Demo.c_plain "assign" "y = name | upcase" Demo.store0)
             "undefined filter: upcase" Demo.store0 eq_refl).
  - exact (proj2 (EvaluateStatement_confines_panics Demo.EvaluateString
                    Demo.c_plain "assign" "y = name | crash" Demo.store0)
             (FaultValue "runtime error: index out of range") Demo.store0
             eq_refl eq_refl).
Defined.

Lemma Clone_keeps_current_node_witness :
  ∃ c', Clone (Fixtures.clone_to 2) Demo.c_include Demo.store0
        = Done c' (<[2%positive := {["name" := VString "x"]}]> Demo.store0)
        ∧ ctx c' = mkNodeContext 2%positive Demo.config
        ∧ node c' = node Demo.c_include ∧ cn c' = cn Demo.c_include
        ∧ TagName c' = TagName Demo.c_include
        ∧ TagArgs c' = TagArgs Demo.c_include.
Proof.
  exact (Clone_keeps_current_node (Fixtures.clone_to 2) Demo.c_include
           (mkNodeContext 2%positive Demo.config) Demo.store0 _ eq_refl).
Defined.

Lemma ParseTagArgs_without_node_witness :
  ParseTagArgs (Demo.renderNode Demo.files 5) Demo.c_plain Demo.store0
  = Done ("", None) Demo.store0.
Proof.
  exact (ParseTagArgs_without_node (Demo.renderNode Demo.files 5) Demo.c_plain
           Demo.store0 eq_refl eq_refl).
Defined.

Lemma ParseTagArgs_as_RenderFile_witness :
  ParseTagArgs (Demo.renderNode Fixtures.files 5) Demo.c_include Demo.store0
  = RenderFile (Demo.ReadFile Fixtures.files) (Demo.renderNode Fixtures.files 5)
      Demo.c_include "args.tpl" Demo.store0.
Proof.
  exact (ParseTagArgs_as_RenderFile (Demo.ReadFile Fixtures.files)
           (Demo.renderNode Fixtures.files 5) Demo.c_include "args.tpl"
           Demo.store0 eq_refl eq_refl).
Defined.

Lemma current_node_is_not_read_witness :
  RenderFile (Demo.ReadFile Demo.files) (Demo.renderNode Demo.files 5)
    Demo.c_include "greet.tpl"
  = RenderFile (Demo.ReadFile Demo.files) (Demo.renderNode Demo.files 5)
      Demo.c_plain "greet.tpl".
Proof.
  exact (proj2 (proj2 (proj2 (proj2 (proj2 (proj2
           (current_node_is_not_read (Demo.ReadFile Demo.files)
              Demo.EvaluateString (Demo.renderNode Demo.files 5)
              (Demo.RenderASTSequence Demo.files 5)
              Demo.c_include Demo.c_plain eq_refl)))))) "greet.tpl").
Defined.

(** C6, as stated for every render context, fails: on a context whose
    bindings are the nil map, [Set] panics, so [Set] followed by [Get]
    does not return the value. *)
Lemma Set_then_Get_fails_on_nil_map :
  (Set_ Fixtures.c_nil "name" (VInt 1) ;; Get Fixtures.c_nil "name") Demo.store0
  = Panicked (FaultError (errorString "assignment to entry in nil map"))
      Demo.store0
  ∧ ¬ (∃ σ',
         (Set_ Fixtures.c_nil "name" (VInt 1) ;; Get Fixtures.c_nil "name")
           Demo.store0
         = Done (VInt 1) σ').
Proof.
  split; [reflexivity |].
  intros [σ' H]. vm_compute in H. discriminate H.
Qed.
